(** * ManagedServiceHost: start / stop / restart against a manager

    A shallow embedding of [service_host/managed_service_host.py].

    The class talks to four things that live outside the file: the manager
    proxy ([manager.send_request]), the base host ([is_running], [connect],
    [get_name]), the [json] module and the [settings] object.  They are
    gathered in the class [Externals]; every definition and theorem below is
    parametric in it.  The methods themselves are written in a small
    state-and-exception monad [Py] over the process state [Proc]. *)

From Stdlib Require Import ZArith.
From stdpp Require Import base strings gmap pretty list.

Set Warnings "-register-all".
Local Open Scope Z_scope.

(** ** Python values *)

(** The values that travel through the file: what [json.loads] and
    [res.json()] return, and what is put in the [params] dict of a request.
    Floats do not occur in the modelled paths. *)
Inductive pyval :=
| PyNone
| PyBool (b : bool)
| PyInt (n : Z)
| PyStr (s : string)
| PyList (l : list pyval)
| PyDict (d : gmap string pyval).

(** Python's truth value, as used by [if x:] and [x and y]. *)
Definition truthy (v : pyval) : bool :=
  match v with
  | PyNone => false
  | PyBool b => b
  | PyInt n => negb (n =? 0)
  | PyStr s => negb (bool_decide (s = ""))
  | PyList l => negb (bool_decide (length l = 0%nat))
  | PyDict d => negb (bool_decide (size d = 0%nat))
  end.

(** Exceptions.  [UnexpectedResponse] is the one the file raises itself;
    [KeyError] and [TypeError] come from subscripting the decoded body;
    [OverflowError] from dividing an int beyond the range of a float;
    [OtherError] stands for whatever an external call raises. *)
Inductive exn :=
| UnexpectedResponse (msg : string)
| KeyError (key : string)
| TypeError
| OverflowError
| OtherError (what : string).

(** [v[key]] for a string key. *)
Definition getitem (v : pyval) (key : string) : exn + pyval :=
  match v with
  | PyDict d =>
      match d !! key with
      | Some x => inr x
      | None => inl (KeyError key)
      end
  | _ => inl TypeError
  end.

(** The response object returned by [manager.send_request], a
    [requests.Response]: [res.status_code], [res.text] and the outcome of
    [res.json()]. *)
Record Response := {
  status_code : Z;
  text : string;
  json : exn + pyval;
}.

(** The text [format] renders for [{res}].  A [requests.Response] has no
    [__str__] or [__format__] of its own, so this is its [__repr__],
    ['<Response [%s]>' % (self.status_code)]. *)
Definition response_str (res : Response) : string :=
  "<Response [" +:+ pretty (status_code res) +:+ "]>".

(** [int / float] converts the int to a float first, rounding to nearest,
    ties to even, and raises [OverflowError] when the result is beyond the
    largest double: that is from [2 ** 1024 - 2 ** 970] on, in absolute
    value. *)
Definition float_int_limit : Z := 2 ^ 1024 - 2 ^ 970.

Arguments float_int_limit : simpl never.

(** The attributes of [self] that the three methods read or write. *)
Record Host := {
  config_file : string;
  config : pyval;
}.

Definition set_config (c : pyval) (h : Host) : Host :=
  {| config_file := config_file h; config := c |}.

(** Observable effects, in the order they happen. *)
Inductive event :=
| EvRequest (action : string) (params : gmap string pyval) (post : bool)
| EvPrint (line : string)
| EvSleep (millis : Z)
| EvConnect.

(** An entry of the [atexit] registry: the bound method [self.stop]
    together with its keyword argument [timeout]. *)
Inductive exit_handler :=
| BoundStop (kw_timeout : Z).

(** ** What the file imports *)

Class Externals := {
  (** everything outside the Python process: the manager and the hosts *)
  World : Type;
  (** [manager.send_request(action, params=..., post=...)] *)
  send_request :
    string -> gmap string pyval -> bool -> World -> (exn + Response) * World;
  (** [ServiceHost.is_running], a read-only check *)
  is_running : Host -> World -> bool;
  (** [ServiceHost.connect] *)
  connect : Host -> World -> (exn + unit) * World;
  (** [ServiceHost.get_name], the display name *)
  get_name : Host -> string;
  (** [type(self).__name__] *)
  cls_name : string;
  (** [json.loads] on a [str] *)
  json_loads : string -> exn + pyval;
  (** [settings.VERBOSITY] and the two [Verbosity] levels compared with it *)
  VERBOSITY : Z;
  PROCESS_START : Z;
  PROCESS_STOP : Z;
  (** [settings.ON_EXIT_MANAGED_HOSTS_STOP_TIMEOUT] *)
  ON_EXIT_MANAGED_HOSTS_STOP_TIMEOUT : Z;
  (** the text [format] renders for [timeout / 1000.0], where that float
      exists *)
  seconds_str : Z -> string;
}.

(** ** Process state and the [Py] monad *)

Record Proc `{Externals} := {
  self : Host;
  world : World;
  exitfuncs : list exit_handler;
  trace : list event;
}.

Definition Py `{Externals} (A : Type) : Type := Proc -> (exn + A) * Proc.

Section Monad.
Context `{X : Externals}.

#[export] Instance Py_ret : MRet Py := fun A a st => (inr a, st).

#[export] Instance Py_bind : MBind Py := fun A B k m st =>
  match m st with
  | (inr a, st') => k a st'
  | (inl e, st') => (inl e, st')
  end.

Definition raise {A} (e : exn) : Py A := fun st => (inl e, st).

Definition lift {A} (r : exn + A) : Py A := fun st => (r, st).

Definition emit (ev : event) : Py unit := fun st =>
  (inr tt, {| self := self st; world := world st;
              exitfuncs := exitfuncs st; trace := trace st ++ [ev] |}).

Definition with_world (w : World) (st : Proc) : Proc :=
  {| self := self st; world := w;
     exitfuncs := exitfuncs st; trace := trace st |}.

(** ** Primitive actions *)

Definition get_self : Py Host := fun st => (inr (self st), st).

(** [self.config = c] *)
Definition assign_config (c : pyval) : Py unit := fun st =>
  (inr tt, {| self := set_config c (self st); world := world st;
              exitfuncs := exitfuncs st; trace := trace st |}).

(** A call that leaves the process: it may change the world and may raise. *)
Definition ask_world {A} (f : World -> (exn + A) * World) : Py A :=
  fun st => let '(r, w) := f (world st) in (r, with_world w st).

(** [self.manager.send_request(action, params=params, post=post)] *)
Definition manager_send_request (action : string)
    (params : gmap string pyval) (post : bool) : Py Response :=
  emit (EvRequest action params post);;
  ask_world (send_request action params post).

(** [self.is_running()] *)
Definition self_is_running : Py bool := fun st =>
  (inr (is_running (self st) (world st)), st).

(** [self.connect()] *)
Definition self_connect : Py unit :=
  h ← get_self;
  emit EvConnect;;
  ask_world (connect h).

(** [self.get_name()] *)
Definition self_get_name : Py string := fun st =>
  (inr (get_name (self st)), st).

(** [print(line)] *)
Definition print (line : string) : Py unit := emit (EvPrint line).

(** [time.sleep(millis / 1000.0)] *)
Definition sleep (millis : Z) : Py unit := emit (EvSleep millis).

(** [atexit.register(self.stop, timeout=t)] *)
Definition atexit_register (h : exit_handler) : Py unit := fun st =>
  (inr tt, {| self := self st; world := world st;
              exitfuncs := exitfuncs st ++ [h]; trace := trace st |}).

(** [json.loads(v)] *)
Definition py_json_loads (v : pyval) : exn + pyval :=
  match v with
  | PyStr s => json_loads s
  | _ => inl TypeError
  end.

(** ** The methods *)

Definition start_error_message (res : Response) : string :=
  "Attempted to start a " +:+ cls_name +:+ ": " +:+ response_str res
    +:+ " - " +:+ text res.

Definition start : Py unit :=
  h ← get_self;
  res ← manager_send_request "start"
        {[ "config" := PyStr (config_file h) ]} true;
  if bool_decide (status_code res ≠ 200) then
    raise (UnexpectedResponse (start_error_message res))
  else
    host_json ← lift (json res);
    output ← lift (getitem host_json "output");
    cfg ← lift (py_json_loads output);
    assign_config cfg;;
    started ← lift (getitem host_json "started");
    (if truthy started && (PROCESS_START <=? VERBOSITY) then
       name ← self_get_name;
       print ("Started " +:+ name)
     else mret tt);;
    atexit_register (BoundStop ON_EXIT_MANAGED_HOSTS_STOP_TIMEOUT).

(** The [timeout] argument of [stop]: [None] (the default) or an int. *)
Definition timeout_value (timeout : option Z) : pyval :=
  match timeout with
  | Some t => PyInt t
  | None => PyNone
  end.

Definition stop_params (h : Host) (timeout : option Z)
    : gmap string pyval :=
  let params := {[ "config" := PyStr (config_file h) ]} in
  if truthy (timeout_value timeout) then
    <[ "timeout" := timeout_value timeout ]> params
  else params.

Definition stop_error_message (name : string) (res : Response) : string :=
  "Attempted to stop " +:+ name +:+ ". Response: "
    +:+ pretty (status_code res) +:+ ": " +:+ text res.

(** [timeout / 1000.0], as [format] will render it. *)
Definition seconds (t : Z) : exn + string :=
  if float_int_limit <=? Z.abs t then inl OverflowError
  else inr (seconds_str t).

Definition will_stop_message (name : string) (timeout : option Z)
    : exn + string :=
  match seconds (default 0 timeout) with
  | inl e => inl e
  | inr s => inr (name +:+ " will stop in " +:+ s +:+ " seconds")
  end.

Definition stop (timeout : option Z) : Py unit :=
  running ← self_is_running;
  if negb running then mret tt
  else
    h ← get_self;
    res ← manager_send_request "stop" (stop_params h timeout) true;
    if bool_decide (status_code res ≠ 200) then
      name ← self_get_name;
      raise (UnexpectedResponse (stop_error_message name res))
    else
      (if negb (truthy (timeout_value timeout)) then sleep 50
       else mret tt);;
      if PROCESS_STOP <=? VERBOSITY then
        name ← self_get_name;
        if truthy (timeout_value timeout) then
          line ← lift (will_stop_message name timeout);
          print line
        else
          print ("Stopped " +:+ name)
      else mret tt.

Definition restart : Py unit :=
  stop None;;
  start;;
  self_connect.

(** The request [start] sends from state [st]. *)
Definition start_request (st : Proc) : event :=
  EvRequest "start" {[ "config" := PyStr (config_file (self st)) ]} true.

(** The request [stop] sends from state [st]. *)
Definition stop_request (st : Proc) (timeout : option Z) : event :=
  EvRequest "stop" (stop_params (self st) timeout) true.

(** What the manager answers to these requests, and the world it leaves. *)
Definition start_reply (st : Proc) : (exn + Response) * World :=
  send_request "start" {[ "config" := PyStr (config_file (self st)) ]}
    true (world st).

Definition stop_reply (st : Proc) (timeout : option Z)
    : (exn + Response) * World :=
  send_request "stop" (stop_params (self st) timeout) true (world st).

(** The state once a request has been sent and answered. *)
Definition after_request (ev : event) (w : World) (st : Proc) : Proc :=
  {| self := self st; world := w; exitfuncs := exitfuncs st;
     trace := trace st ++ [ev] |}.

(** What [start] prints for a given [started] field. *)
Definition start_notice (started : pyval) (h : Host) : list event :=
  if truthy started && (PROCESS_START <=? VERBOSITY)
  then [EvPrint ("Started " +:+ get_name h)] else [].

(** What a [stop] that got a 200 does after the status check. *)
Definition stop_settle (timeout : option Z) : list event :=
  if negb (truthy (timeout_value timeout)) then [EvSleep 50] else [].

Definition stop_notice (timeout : option Z) (h : Host) : list event :=
  if PROCESS_STOP <=? VERBOSITY then
    if truthy (timeout_value timeout)
    then match will_stop_message (get_name h) timeout with
         | inr line => [EvPrint line]
         | inl _ => []
         end
    else [EvPrint ("Stopped " +:+ get_name h)]
  else [].

(** How such a [stop] ends: it raises if the line to print cannot be
    built. *)
Definition stop_outcome (timeout : option Z) (h : Host) : exn + unit :=
  if PROCESS_STOP <=? VERBOSITY then
    if truthy (timeout_value timeout)
    then match will_stop_message (get_name h) timeout with
         | inr _ => inr ()
         | inl e => inl e
         end
    else inr ()
  else inr ().

(** The one way a [stop] that got a 200 raises: it is to print the line
    with the seconds, and the timeout is beyond the floats. *)
Definition seconds_overflow (timeout : option Z) : Prop :=
  PROCESS_STOP ≤ VERBOSITY ∧
  ∃ t, timeout = Some t ∧ float_int_limit ≤ Z.abs t.

(** Calling an [atexit] entry: [self.stop(timeout=kw_timeout)]. *)
Definition call_exit_handler (h : exit_handler) : Py unit :=
  match h with
  | BoundStop t => stop (Some t)
  end.

End Monad.

(** ** Observing a run *)

(** The text [needle] occurs in [hay] (Python's [needle in hay]). *)
Definition contains (needle hay : string) : Prop :=
  ∃ pre post, hay = pre +:+ needle +:+ post.

Fixpoint prefixb (p s : string) : bool :=
  match p, s with
  | EmptyString, _ => true
  | String a p', String b s' => bool_decide (a = b) && prefixb p' s'
  | String _ _, EmptyString => false
  end.

(** The executable counterpart of [contains]. *)
Fixpoint containsb (needle hay : string) : bool :=
  prefixb needle hay ||
  match hay with
  | EmptyString => false
  | String _ hay' => containsb needle hay'
  end.

(** The calls that leave the process: requests to the manager and
    [connect]. *)
Definition is_call (ev : event) : bool :=
  match ev with
  | EvRequest _ _ _ | EvConnect => true
  | EvPrint _ | EvSleep _ => false
  end.

Definition calls (tr : list event) : list event := List.filter is_call tr.

(** Milliseconds spent in [time.sleep] along a trace. *)
Fixpoint slept (tr : list event) : Z :=
  match tr with
  | [] => 0
  | EvSleep ms :: tr' => ms + slept tr'
  | _ :: tr' => slept tr'
  end.

(** ** A simulated manager

    A concrete [Externals] on which the statements below are run: a manager
    that answers [start] and [stop] with fixed replies and keeps one flag
    telling whether the host process is alive. *)
Module Sim.

Record Manager := {
  alive : bool;
  start_answer : Response;
  stop_answer : Response;
}.

Definition set_alive (b : bool) (m : Manager) : Manager :=
  {| alive := b; start_answer := start_answer m; stop_answer := stop_answer m |}.

Definition sim_send_request (action : string) (params : gmap string pyval)
    (post : bool) (m : Manager) : (exn + Response) * Manager :=
  if bool_decide (action = "start") then
    (inr (start_answer m),
     set_alive (alive m || bool_decide (status_code (start_answer m) = 200)) m)
  else if bool_decide (action = "stop") then
    (inr (stop_answer m),
     if bool_decide (status_code (stop_answer m) = 200)
        && negb (bool_decide (is_Some (params !! "timeout")))
     then set_alive false m else m)
  else (inl (OtherError "unknown action"), m).

Definition quote : string := String (Ascii.ascii_of_nat 34) EmptyString.

(** The text [{"port": 5000}]. *)
Definition port_json : string :=
  "{" +:+ quote +:+ "port" +:+ quote +:+ ": 5000}".

Definition port_config : pyval := PyDict {[ "port" := PyInt 5000 ]}.

(** A decoder that knows the one document the simulation sends. *)
Definition sim_json_loads (s : string) : exn + pyval :=
  if bool_decide (s = port_json) then inr port_config
  else inl (OtherError "ValueError").

Definition sim_get_name (h : Host) : string :=
  "ManagedServiceHost [" +:+ config_file h +:+ "]".

(** The decimal expansion of [t / 1000]: what Python prints for
    [t / 1000.0] as long as [t] has fewer than sixteen digits. *)
Definition sim_seconds_str (t : Z) : string :=
  let r := Z.abs t `mod` 1000 in
  (if t <? 0 then "-" else "") +:+ pretty (Z.abs t `div` 1000) +:+ "." +:+
  (if r `mod` 100 =? 0 then pretty (r `div` 100)
   else if r `mod` 10 =? 0 then
     pretty (r `div` 100) +:+ pretty ((r `div` 10) `mod` 10)
   else
     pretty (r `div` 100) +:+ pretty ((r `div` 10) `mod` 10)
       +:+ pretty (r `mod` 10)).

Definition externals (verbosity : Z) : Externals := {|
  World := Manager;
  send_request := sim_send_request;
  is_running := fun _ m => alive m;
  connect := fun _ m => (inr tt, m);
  get_name := sim_get_name;
  cls_name := "ManagedServiceHost";
  json_loads := sim_json_loads;
  VERBOSITY := verbosity;
  PROCESS_START := 200;
  PROCESS_STOP := 300;
  ON_EXIT_MANAGED_HOSTS_STOP_TIMEOUT := 10000;
  seconds_str := sim_seconds_str;
|}.

(** the configuration the runs below use: verbosity at [PROCESS_STOP] *)
Definition loud : Externals := externals 300.

Definition ok_start (started : bool) : Response := {|
  status_code := 200;
  text := "";
  json := inr (PyDict {[ "started" := PyBool started;
                          "output" := PyStr port_json ]});
|}.

Definition ok_stop : Response := {|
  status_code := 200;
  text := "";
  json := inl (OtherError "ValueError");
|}.

Definition boom : Response := {|
  status_code := 500;
  text := "boom";
  json := inl (OtherError "ValueError");
|}.

Definition host0 : Host :=
  {| config_file := "host.config.js"; config := PyDict ∅ |}.

Definition proc (v : Z) (m : Manager) : @Proc (externals v) :=
  @Build_Proc (externals v) host0 m [] [].

(** a manager that is healthy, with the host running or not *)
Definition healthy (running started : bool) : Manager :=
  {| alive := running; start_answer := ok_start started;
     stop_answer := ok_stop |}.

(** a manager that answers every request with status 500 *)
Definition failing (running : bool) : Manager :=
  {| alive := running; start_answer := boom; stop_answer := boom |}.

End Sim.

(** The lines written by [print] along a trace. *)
Fixpoint printed_lines (tr : list event) : list string :=
  match tr with
  | [] => []
  | EvPrint line :: tr' => line :: printed_lines tr'
  | _ :: tr' => printed_lines tr'
  end.

(** ** Managers that misbehave

    More replies and two more [Externals] for the paths on which something
    goes wrong: a body that does not decode, a missing key, a manager that
    cannot be reached, a [connect] that fails. *)
Module SimFaults.

(** status 200, but [res.json()] raises *)
Definition no_json : Response := {|
  status_code := 200;
  text := "not json";
  json := inl (OtherError "ValueError");
|}.

(** status 200, a body without ['output'] *)
Definition no_output : Response := {|
  status_code := 200;
  text := "";
  json := inr (PyDict {[ "started" := PyBool true ]});
|}.

(** status 200, a body that is a list *)
Definition list_body : Response := {|
  status_code := 200;
  text := "";
  json := inr (PyList [PyStr Sim.port_json]);
|}.

(** status 200, an ['output'] that [json.loads] rejects *)
Definition bad_output : Response := {|
  status_code := 200;
  text := "";
  json := inr (PyDict {[ "started" := PyBool true;
                          "output" := PyStr "{port" ]});
|}.

(** status 200, an ['output'] that is not a string *)
Definition int_output : Response := {|
  status_code := 200;
  text := "";
  json := inr (PyDict {[ "started" := PyBool true;
                          "output" := PyInt 5000 ]});
|}.

(** status 200, a body without ['started'] *)
Definition no_started : Response := {|
  status_code := 200;
  text := "";
  json := inr (PyDict {[ "output" := PyStr Sim.port_json ]});
|}.

(** a manager that answers the start request with [reply] *)
Definition answering (running : bool) (reply : Response) : Sim.Manager :=
  {| Sim.alive := running; Sim.start_answer := reply;
     Sim.stop_answer := Sim.ok_stop |}.

(** a manager that cannot be reached: every request raises *)
Definition unreachable : Externals := {|
  World := Sim.Manager;
  send_request := fun _ _ _ m => (inl (OtherError "ConnectionError"), m);
  is_running := fun _ m => Sim.alive m;
  connect := fun _ m => (inr tt, m);
  get_name := Sim.sim_get_name;
  cls_name := "ManagedServiceHost";
  json_loads := Sim.sim_json_loads;
  VERBOSITY := 300;
  PROCESS_START := 200;
  PROCESS_STOP := 300;
  ON_EXIT_MANAGED_HOSTS_STOP_TIMEOUT := 10000;
  seconds_str := Sim.sim_seconds_str;
|}.

(** the manager of [Sim], with a [connect] that raises *)
Definition no_connect : Externals := {|
  World := Sim.Manager;
  send_request := Sim.sim_send_request;
  is_running := fun _ m => Sim.alive m;
  connect := fun _ m => (inl (OtherError "ConnectionError"), m);
  get_name := Sim.sim_get_name;
  cls_name := "ManagedServiceHost";
  json_loads := Sim.sim_json_loads;
  VERBOSITY := 300;
  PROCESS_START := 200;
  PROCESS_STOP := 300;
  ON_EXIT_MANAGED_HOSTS_STOP_TIMEOUT := 10000;
  seconds_str := Sim.sim_seconds_str;
|}.

(** the manager of [Sim], with [name] for [get_name] *)
Definition named (name : Host -> string) : Externals := {|
  World := Sim.Manager;
  send_request := Sim.sim_send_request;
  is_running := fun _ m => Sim.alive m;
  connect := fun _ m => (inr tt, m);
  get_name := name;
  cls_name := "ManagedServiceHost";
  json_loads := Sim.sim_json_loads;
  VERBOSITY := 300;
  PROCESS_START := 200;
  PROCESS_STOP := 300;
  ON_EXIT_MANAGED_HOSTS_STOP_TIMEOUT := 10000;
  seconds_str := Sim.sim_seconds_str;
|}.

(** a fresh process over any of them *)
Definition proc_of (E : Externals) (m : @World E) : @Proc E :=
  @Build_Proc E Sim.host0 m [] [].

End SimFaults.

(** * Properties *)

(** ** Text lemmas *)

Lemma append_nil (s : string) : "" +:+ s = s.
Proof. reflexivity. Qed.

Lemma append_cons (c : Ascii.ascii) (s t : string) :
  String c s +:+ t = String c (s +:+ t).
Proof. reflexivity. Qed.

Lemma append_nil_r (s : string) : s +:+ "" = s.
Proof.
  induction s as [|c s IH]; [reflexivity | by rewrite append_cons, IH].
Qed.

Lemma string_app_assoc (a b c : string) : (a +:+ b) +:+ c = a +:+ b +:+ c.
Proof.
  induction a as [|x a IH]; [reflexivity | by rewrite !append_cons, IH].
Qed.

Lemma contains_here (x post : string) : contains x (x +:+ post).
Proof. by exists "", post. Qed.

Lemma contains_refl (x : string) : contains x x.
Proof. exists "", "". by rewrite append_nil, append_nil_r. Qed.

Lemma contains_skip (x p s : string) : contains x s → contains x (p +:+ s).
Proof.
  intros (pre & post & ->). exists (p +:+ pre), post.
  by rewrite string_app_assoc.
Qed.

Lemma contains_before (x s t : string) : contains x s → contains x (s +:+ t).
Proof.
  intros (pre & post & ->). exists pre, (post +:+ t).
  by rewrite !string_app_assoc.
Qed.

Create HintDb text.
#[local] Hint Resolve contains_here contains_refl contains_skip : text.

Lemma prefixb_spec (p s : string) :
  prefixb p s = true ↔ ∃ post, s = p +:+ post.
Proof.
  revert s. induction p as [|a p IH]; intros s; simpl.
  - split; [by exists s | done].
  - destruct s as [|b s].
    + split; [done | by intros [post ?]].
    + rewrite andb_true_iff, bool_decide_eq_true, IH. split.
      * intros [-> [post ->]]. by exists post.
      * intros [post H]. rewrite append_cons in H. injection H as -> ->. eauto.
Qed.

Lemma containsb_spec (needle hay : string) :
  containsb needle hay = true ↔ contains needle hay.
Proof.
  induction hay as [|c hay IH]; simpl.
  - rewrite orb_false_r, prefixb_spec. split.
    + intros [post ->]. apply contains_here.
    + intros (pre & post & H). destruct pre; [by exists post | done].
  - rewrite orb_true_iff, prefixb_spec, IH. split.
    + intros [[post ->] | H].
      * apply contains_here.
      * by apply (contains_skip _ (String c "")).
    + intros (pre & post & H). destruct pre as [|c' pre].
      * left. by exists post.
      * right. rewrite append_cons in H. injection H as _ ->. by exists pre, post.
Qed.

(** ** Trace lemmas *)

Lemma calls_app (t1 t2 : list event) : calls (t1 ++ t2) = calls t1 ++ calls t2.
Proof. apply List.filter_app. Qed.

Lemma slept_app (t1 t2 : list event) : slept (t1 ++ t2) = slept t1 + slept t2.
Proof.
  induction t1 as [|[] t1 IH]; simpl; rewrite ?IH; lia.
Qed.

Section Properties.
Context `{X : Externals}.
Implicit Types (st : Proc) (res : Response) (timeout : option Z).

(** ** Stepping lemmas: the paths through [start] *)

(** [start] up to the status check. *)
Lemma start_sends st :
  start st =
  match start_reply st with
  | (inl e, w) => (inl e, after_request (start_request st) w st)
  | (inr res, w) =>
      if bool_decide (status_code res ≠ 200) then
        (inl (UnexpectedResponse (start_error_message res)),
         after_request (start_request st) w st)
      else
        (host_json ← lift (json res);
         output ← lift (getitem host_json "output");
         cfg ← lift (py_json_loads output);
         assign_config cfg;;
         started ← lift (getitem host_json "started");
         (if truthy started && (PROCESS_START <=? VERBOSITY) then
            name ← self_get_name;
            print ("Started " +:+ name)
          else mret tt);;
         atexit_register (BoundStop ON_EXIT_MANAGED_HOSTS_STOP_TIMEOUT))
        (after_request (start_request st) w st)
  end.
Proof.
  unfold start, start_reply, manager_send_request, ask_world, mbind, Py_bind.
  simpl. destruct (send_request _ _ _ _) as [[e|res] w]; [done|].
  by destruct (bool_decide _).
Qed.

(** [start] on a 200 response whose body decodes. *)
Lemma start_decoded st res w body output cfg :
  start_reply st = (inr res, w) →
  status_code res = 200 →
  json res = inr body →
  getitem body "output" = inr output →
  py_json_loads output = inr cfg →
  start st =
  match getitem body "started" with
  | inl e =>
      (inl e, {| self := set_config cfg (self st); world := w;
                 exitfuncs := exitfuncs st;
                 trace := trace st ++ [start_request st] |})
  | inr started =>
      (inr (), {| self := set_config cfg (self st); world := w;
                  exitfuncs := exitfuncs st ++
                    [BoundStop ON_EXIT_MANAGED_HOSTS_STOP_TIMEOUT];
                  trace := (trace st ++ [start_request st]) ++
                    start_notice started (set_config cfg (self st)) |})
  end.
Proof.
  intros Hreply Hcode Hjson Hout Hcfg.
  rewrite start_sends, Hreply, bool_decide_eq_false_2 by (by intros []).
  unfold mbind, Py_bind, lift. rewrite Hjson, Hout, Hcfg. simpl.
  destruct (getitem body "started") as [e|started]; [done|].
  unfold start_notice. destruct (truthy started && _); simpl; [done|].
  by rewrite app_nil_r.
Qed.

(** Take a run of [start] past a 200 status check. *)
Ltac past_status Hrun Hreply :=
  rewrite start_sends, Hreply, bool_decide_eq_false_2 in Hrun
    by (by intros []);
  unfold mbind, Py_bind, lift in Hrun.

(** A [start] that returns went through the whole success path. *)
Lemma start_returns_inv st st' :
  start st = (inr (), st') →
  ∃ res w body output cfg started,
    start_reply st = (inr res, w) ∧ status_code res = 200 ∧
    json res = inr body ∧ getitem body "output" = inr output ∧
    py_json_loads output = inr cfg ∧ getitem body "started" = inr started ∧
    st' = {| self := set_config cfg (self st); world := w;
             exitfuncs := exitfuncs st ++
               [BoundStop ON_EXIT_MANAGED_HOSTS_STOP_TIMEOUT];
             trace := (trace st ++ [start_request st]) ++
               start_notice started (set_config cfg (self st)) |}.
Proof.
  intros Hrun. pose proof (start_sends st) as Hs. rewrite Hrun in Hs.
  destruct (start_reply st) as [[e|res] w] eqn:Hreply; [done|].
  destruct (bool_decide (status_code res ≠ 200)) eqn:Hcode; [done|].
  apply bool_decide_eq_false in Hcode. apply dec_stable in Hcode.
  clear Hs.
  destruct (json res) as [e|body] eqn:Hjson.
  { past_status Hrun Hreply. by rewrite Hjson in Hrun. }
  destruct (getitem body "output") as [e|output] eqn:Hout.
  { past_status Hrun Hreply. by rewrite Hjson, Hout in Hrun. }
  destruct (py_json_loads output) as [e|cfg] eqn:Hcfg.
  { past_status Hrun Hreply. by rewrite Hjson, Hout, Hcfg in Hrun. }
  rewrite (start_decoded _ _ _ _ _ _ Hreply Hcode Hjson Hout Hcfg) in Hrun.
  destruct (getitem body "started") as [e|started] eqn:Hst; [done|].
  injection Hrun as <-. by exists res, w, body, output, cfg, started.
Qed.

(** ** Stepping lemmas: the paths through [stop] *)

Lemma stop_not_running st timeout :
  is_running (self st) (world st) = false → stop timeout st = (inr (), st).
Proof.
  intros Hrun. unfold stop, self_is_running, mbind, Py_bind.
  by rewrite Hrun.
Qed.

Lemma stop_sends st timeout :
  is_running (self st) (world st) = true →
  stop timeout st =
  match stop_reply st timeout with
  | (inl e, w) => (inl e, after_request (stop_request st timeout) w st)
  | (inr res, w) =>
      if bool_decide (status_code res ≠ 200) then
        (inl (UnexpectedResponse
                (stop_error_message (get_name (self st)) res)),
         after_request (stop_request st timeout) w st)
      else
        (stop_outcome timeout (self st),
         {| self := self st; world := w;
            exitfuncs := exitfuncs st;
            trace := (trace st ++ [stop_request st timeout]) ++
              stop_settle timeout ++
              stop_notice timeout (self st) |})
  end.
Proof.
  intros Hrun.
  unfold stop, stop_reply, self_is_running, manager_send_request, ask_world,
    mbind, Py_bind.
  rewrite Hrun. simpl.
  destruct (send_request _ _ _ _) as [[e|res] w]; [done|].
  destruct (bool_decide _); [done|].
  unfold stop_settle, stop_notice, stop_outcome, sleep, print, emit, lift,
    mret, Py_ret.
  destruct (truthy (timeout_value timeout)), (PROCESS_STOP <=? VERBOSITY);
    simpl; rewrite <- ?app_assoc, ?app_nil_r; try done.
  destruct (will_stop_message _ _); simpl; by rewrite <- ?app_assoc.
Qed.

(** Without a timeout, or with zero, a [stop] that got a 200 returns. *)
Lemma stop_outcome_falsy timeout h :
  truthy (timeout_value timeout) = false → stop_outcome timeout h = inr ().
Proof.
  intros Hfalsy. unfold stop_outcome. rewrite Hfalsy.
  by destruct (PROCESS_STOP <=? VERBOSITY).
Qed.

(** What is printed is no call and no sleep. *)
Lemma stop_notice_quiet timeout h :
  calls (stop_notice timeout h) = [] ∧
  slept (stop_notice timeout h) = 0 ∧
  ∀ ms, EvSleep ms ∉ stop_notice timeout h.
Proof.
  unfold stop_notice.
  destruct (PROCESS_STOP <=? VERBOSITY), (truthy (timeout_value timeout));
    try destruct (will_stop_message _ _);
    split_and!; try done; intros ms Hin;
    first [by apply elem_of_nil in Hin
          |by apply list_elem_of_singleton in Hin].
Qed.

(** A [stop] that raises after a 200 has printed nothing and did not
    sleep. *)
Lemma stop_outcome_raises timeout h e :
  stop_outcome timeout h = inl e →
  stop_settle timeout = [] ∧ stop_notice timeout h = [].
Proof.
  unfold stop_outcome, stop_settle, stop_notice.
  destruct (PROCESS_STOP <=? VERBOSITY), (truthy (timeout_value timeout));
    try done.
  by destruct (will_stop_message _ _).
Qed.

(** ** [start] *)

(** C1: when the manager answers the start request with status 200,
    [start] leaves in [self.config] exactly the value that [json.loads]
    decodes from the ['output'] field of the response body; the value held
    before plays no part, and [config_file] is kept. *)
Theorem start_adopts_decoded_output st res w body output cfg :
  start_reply st = (inr res, w) →
  status_code res = 200 →
  json res = inr body →
  getitem body "output" = inr output →
  py_json_loads output = inr cfg →
  config (self (start st).2) = cfg ∧
  config_file (self (start st).2) = config_file (self st).
Proof.
  intros Hreply Hcode Hjson Hout Hcfg.
  rewrite (start_decoded _ _ _ _ _ _ Hreply Hcode Hjson Hout Hcfg).
  by destruct (getitem body "started").
Qed.

(** With a ['started'] field in the body as well, [start] returns. *)
Lemma start_returns st res w body output cfg started :
  start_reply st = (inr res, w) →
  status_code res = 200 →
  json res = inr body →
  getitem body "output" = inr output →
  py_json_loads output = inr cfg →
  getitem body "started" = inr started →
  (start st).1 = inr ().
Proof.
  intros Hreply Hcode Hjson Hout Hcfg Hst.
  by rewrite (start_decoded _ _ _ _ _ _ Hreply Hcode Hjson Hout Hcfg), Hst.
Qed.

(** C2: when the manager answers the start request with a status other
    than 200, [start] raises [UnexpectedResponse] and [self.config] is what
    it was before the call. *)
Theorem start_non_200_raises st res w :
  start_reply st = (inr res, w) →
  status_code res ≠ 200 →
  (start st).1 = inl (UnexpectedResponse (start_error_message res)) ∧
  config (self (start st).2) = config (self st).
Proof.
  intros Hreply Hcode.
  by rewrite start_sends, Hreply, bool_decide_eq_true_2.
Qed.

(** C6, as the code has it: on a status other than 200 the message of the
    [UnexpectedResponse] raised by [start] carries the class name of the
    controller, the status code in decimal and the response body text. *)
Theorem start_error_carries st res w :
  start_reply st = (inr res, w) →
  status_code res ≠ 200 →
  ∃ msg, (start st).1 = inl (UnexpectedResponse msg) ∧
         contains cls_name msg ∧
         contains (pretty (status_code res)) msg ∧
         contains (text res) msg.
Proof.
  intros Hreply Hcode. exists (start_error_message res).
  split; [by rewrite start_sends, Hreply, bool_decide_eq_true_2|].
  unfold start_error_message. split_and!; [auto 10 with text | |
                                           auto 10 with text].
  do 3 apply contains_skip. apply contains_before.
  unfold response_str. auto with text.
Qed.

(** C8: a [start] that returns has appended to the [atexit] registry one
    entry, and calling that entry is calling [stop] with
    [settings.ON_EXIT_MANAGED_HOSTS_STOP_TIMEOUT] as its timeout. *)
Theorem start_registers_exit_stop st st' :
  start st = (inr (), st') →
  ∃ h, exitfuncs st' = exitfuncs st ++ [h] ∧
       call_exit_handler h = stop (Some ON_EXIT_MANAGED_HOSTS_STOP_TIMEOUT).
Proof.
  intros Hrun.
  destruct (start_returns_inv _ _ Hrun)
    as (res & w & body & output & cfg & started & _ & _ & _ & _ & _ & _ & ->).
  by exists (BoundStop ON_EXIT_MANAGED_HOSTS_STOP_TIMEOUT).
Qed.

(** C9: a [start] that returns has printed, after its request, the line
    ["Started <name>"] exactly when the ['started'] field of the body is
    true and [settings.VERBOSITY >= Verbosity.PROCESS_START]; it prints
    nothing else, and nothing at all when ['started'] is [False]. *)
Theorem start_notifies_iff_started st st' res w body started :
  start st = (inr (), st') →
  start_reply st = (inr res, w) →
  json res = inr body →
  getitem body "started" = inr started →
  ∃ printed,
    trace st' = trace st ++ start_request st :: printed ∧
    (EvPrint ("Started " +:+ get_name (self st')) ∈ printed ↔
       truthy started = true ∧ PROCESS_START ≤ VERBOSITY) ∧
    (∀ ev, ev ∈ printed → ev = EvPrint ("Started " +:+ get_name (self st'))) ∧
    (started = PyBool false → printed = []).
Proof.
  intros Hrun Hreply Hjson Hst.
  destruct (start_returns_inv _ _ Hrun)
    as (res' & w' & body' & output & cfg & started' &
        Hreply' & _ & Hjson' & _ & _ & Hst' & ->).
  rewrite Hreply in Hreply'. injection Hreply' as <- <-.
  rewrite Hjson in Hjson'. injection Hjson' as <-.
  rewrite Hst in Hst'. injection Hst' as <-.
  exists (start_notice started (set_config cfg (self st))). simpl.
  split; [by rewrite <- app_assoc|].
  unfold start_notice.
  destruct (truthy started) eqn:Ht; simpl.
  - destruct (Z.leb_spec PROCESS_START VERBOSITY); split_and!.
    + split; [done | intros _; by apply list_elem_of_singleton].
    + intros ev Hev. by apply list_elem_of_singleton in Hev.
    + by intros ->.
    + split; [by intros ?%elem_of_nil | intros [_ ?]; lia].
    + by intros ev ?%elem_of_nil.
    + done.
  - split_and!.
    + split; [by intros ?%elem_of_nil | by intros [? _]].
    + by intros ev ?%elem_of_nil.
    + done.
Qed.

(** C10: when the manager answers the start request with a status other
    than 200, all that [start] has done when it raises is send that
    request: the [atexit] registry and [self] are untouched and the trace
    has grown by the request alone, so nothing was printed. *)
Theorem start_non_200_frame st res w :
  start_reply st = (inr res, w) →
  status_code res ≠ 200 →
  exitfuncs (start st).2 = exitfuncs st ∧
  trace (start st).2 = trace st ++ [start_request st] ∧
  self (start st).2 = self st ∧
  world (start st).2 = w.
Proof.
  intros Hreply Hcode.
  by rewrite start_sends, Hreply, bool_decide_eq_true_2.
Qed.

(** ** [stop] *)

(** C5: when [is_running] reports false, [stop] returns at once without
    an error and leaves the whole state as it was: no request is sent,
    nothing is printed, nothing sleeps. *)
Theorem stop_when_not_running_is_noop st timeout :
  is_running (self st) (world st) = false →
  stop timeout st = (inr (), st).
Proof. apply stop_not_running. Qed.

(** C7: when a running controller gets a status other than 200 for its
    stop request, [stop] raises [UnexpectedResponse] with a message that
    carries the display name, the status code in decimal and the response
    body text. *)
Theorem stop_error_carries st timeout res w :
  is_running (self st) (world st) = true →
  stop_reply st timeout = (inr res, w) →
  status_code res ≠ 200 →
  ∃ msg, (stop timeout st).1 = inl (UnexpectedResponse msg) ∧
         contains (get_name (self st)) msg ∧
         contains (pretty (status_code res)) msg ∧
         contains (text res) msg.
Proof.
  intros Hrun Hreply Hcode.
  exists (stop_error_message (get_name (self st)) res).
  split; [by rewrite stop_sends, Hreply, bool_decide_eq_true_2|].
  unfold stop_error_message. auto 10 with text.
Qed.

(** The [params] of the stop request. *)
Lemma stop_params_config st timeout :
  stop_params (self st) timeout !! "config"
    = Some (PyStr (config_file (self st))).
Proof.
  unfold stop_params. destruct (truthy _); by simplify_map_eq.
Qed.

Lemma stop_params_truthy st t :
  t ≠ 0 → stop_params (self st) (Some t) !! "timeout" = Some (PyInt t).
Proof.
  intros Ht. unfold stop_params. simpl.
  destruct (Z.eqb_spec t 0); [done|]. by simplify_map_eq.
Qed.

Lemma stop_params_falsy st timeout :
  timeout = None ∨ timeout = Some 0 →
  stop_params (self st) timeout = {[ "config" := PyStr (config_file (self st)) ]}.
Proof. by intros [-> | ->]. Qed.

(** C3: a running controller sends exactly one stop request.  With a
    timeout other than zero (a positive one in particular) its [params]
    hold that timeout under ['timeout'] and no [time.sleep] happens.  With
    no timeout, or zero, the [params] hold ['config'] alone, and a call
    that returns -- it does on status 200 -- has slept 50 ms right after
    the request. *)
Theorem stop_forwards_timeout_or_settles st timeout r w :
  is_running (self st) (world st) = true →
  stop_reply st timeout = (r, w) →
  ∃ rest,
    trace (stop timeout st).2 = trace st ++ stop_request st timeout :: rest ∧
    calls rest = [] ∧
    (∀ t, timeout = Some t → t ≠ 0 →
       stop_params (self st) timeout !! "timeout" = Some (PyInt t) ∧
       slept rest = 0 ∧ ∀ ms, EvSleep ms ∉ rest) ∧
    (timeout = None ∨ timeout = Some 0 →
       stop_params (self st) timeout
         = {[ "config" := PyStr (config_file (self st)) ]} ∧
       (∀ res, r = inr res → status_code res = 200 →
          (stop timeout st).1 = inr ()) ∧
       ((stop timeout st).1 = inr () →
          ∃ rest', rest = EvSleep 50 :: rest' ∧ slept rest = 50)).
Proof.
  intros Hrun Hreply. rewrite stop_sends, Hreply by done.
  destruct (stop_notice_quiet timeout (self st)) as (Hcalls & Hslept & Hnosleep).
  destruct r as [e|res]; [|destruct (bool_decide_reflect (status_code res ≠ 200))].
  1, 2: exists []; simpl; split_and!; try done.
  1, 3: intros t -> Ht; split_and!;
          [by apply stop_params_truthy | done | by intros ms ?%elem_of_nil].
  1, 2: intros Hfalsy; split_and!;
          [by apply stop_params_falsy | by intros ? [= <-] | done].
  exists (stop_settle timeout ++ stop_notice timeout (self st)). simpl.
  split_and!.
  - by rewrite <- app_assoc.
  - rewrite calls_app, Hcalls. unfold stop_settle. by destruct (negb _).
  - intros t -> Ht. split_and!; [by apply stop_params_truthy | |].
    + rewrite slept_app, Hslept. unfold stop_settle. simpl.
      by destruct (Z.eqb_spec t 0).
    + unfold stop_settle. simpl. destruct (Z.eqb_spec t 0); [done|]. simpl.
      apply Hnosleep.
  - intros Hfalsy. split_and!; [by apply stop_params_falsy | |].
    { intros _ _ _. apply stop_outcome_falsy. by destruct Hfalsy as [-> | ->]. }
    intros _. exists (stop_notice timeout (self st)).
    rewrite slept_app, Hslept.
    by destruct Hfalsy as [-> | ->].
Qed.

(** ** [restart] *)

Lemma restart_steps st :
  restart st =
  match stop None st with
  | (inl e, st1) => (inl e, st1)
  | (inr _, st1) =>
      match start st1 with
      | (inl e, st2) => (inl e, st2)
      | (inr _, st2) => self_connect st2
      end
  end.
Proof.
  unfold restart, mbind, Py_bind.
  destruct (stop None st) as [[e|[]] st1]; [done|].
  by destruct (start st1) as [[e|[]] st2].
Qed.

Lemma self_connect_steps st :
  self_connect st =
  ((connect (self st) (world st)).1,
   after_request EvConnect (connect (self st) (world st)).2 st).
Proof.
  unfold self_connect, get_self, ask_world, mbind, Py_bind. simpl.
  by destruct (connect _ _).
Qed.

(** A [stop] that raises was running and got no further than its
    request. *)
Lemma stop_raises_inv st timeout e st1 :
  stop timeout st = (inl e, st1) →
  trace st1 = trace st ++ [stop_request st timeout] ∧
  self st1 = self st ∧ exitfuncs st1 = exitfuncs st.
Proof.
  intros Hstop.
  destruct (is_running (self st) (world st)) eqn:Hrun;
    [|by rewrite stop_not_running in Hstop].
  rewrite stop_sends in Hstop by done.
  destruct (stop_reply st timeout) as [[e'|res] w].
  - by injection Hstop as <- <-.
  - destruct (bool_decide _); [by injection Hstop as <- <-|].
    injection Hstop as Hout <-. simpl.
    destruct (stop_outcome_raises _ _ _ Hout) as [-> ->].
    by rewrite app_nil_r.
Qed.

(** C4: on a running controller whose manager answers 200 to the stop
    request and 200 with a well-formed body to the start request,
    [restart] makes exactly three calls out of the process, in this order:
    the stop request (without timeout), the start request, [connect]; and
    its outcome is that of [connect].  If instead [stop] raises, [restart]
    raises the same error in the state [stop] left, in which the stop
    request is the only call made: no start request is sent. *)
Theorem restart_stops_starts_connects st :
  is_running (self st) (world st) = true →
  (∀ res1 w1 res2 w2 body output cfg started,
     stop_reply st None = (inr res1, w1) →
     status_code res1 = 200 →
     start_reply (with_world w1 st) = (inr res2, w2) →
     status_code res2 = 200 →
     json res2 = inr body →
     getitem body "output" = inr output →
     py_json_loads output = inr cfg →
     getitem body "started" = inr started →
     calls (trace (restart st).2)
       = calls (trace st) ++
         [stop_request st None; start_request st; EvConnect] ∧
     (restart st).1 = (connect (set_config cfg (self st)) w2).1) ∧
  (∀ e st1,
     stop None st = (inl e, st1) →
     restart st = (inl e, st1) ∧
     calls (trace st1) = calls (trace st) ++ [stop_request st None]).
Proof.
  intros Hrun. split.
  - intros res1 w1 res2 w2 body output cfg started
      Hstop Hcode1 Hstart Hcode2 Hjson Hout Hcfg Hst.
    rewrite restart_steps, stop_sends, Hstop by done.
    rewrite bool_decide_eq_false_2, stop_outcome_falsy by (done || by intros []).
    match goal with |- context [start ?s] => set (st1 := s) end.
    assert (Hstart1 : start_reply st1 = (inr res2, w2)) by exact Hstart.
    rewrite (start_decoded _ _ _ _ _ _ Hstart1 Hcode2 Hjson Hout Hcfg), Hst.
    rewrite self_connect_steps. simpl. split; [|done].
    rewrite !calls_app.
    assert (calls (EvSleep 50 :: stop_notice None (self st)) = []) as ->.
    { unfold stop_notice. by destruct (PROCESS_STOP <=? VERBOSITY). }
    assert (calls (start_notice started (set_config cfg (self st))) = [])
      as ->.
    { unfold start_notice. by destruct (truthy started && _). }
    by rewrite <- !app_assoc.
  - intros e st1 Hstop. split.
    + by rewrite restart_steps, Hstop.
    + destruct (stop_raises_inv _ _ _ _ Hstop) as (-> & _ & _).
      by rewrite calls_app.
Qed.

End Properties.

(** * The statements on the simulated manager *)

Module SimRuns.
Import Sim.

Lemma start_adopts_decoded_output_witness :
  config (self (@start loud (proc 300 (healthy false true))).2) = port_config ∧
  config_file (self (@start loud (proc 300 (healthy false true))).2)
    = "host.config.js".
Proof.
  apply (@start_adopts_decoded_output loud (proc 300 (healthy false true))
           (ok_start true) (healthy true true)
           (PyDict {[ "started" := PyBool true; "output" := PyStr port_json ]})
           (PyStr port_json) port_config);
    vm_compute; first [reflexivity | discriminate].
Defined.

Lemma start_non_200_raises_witness :
  (@start loud (proc 300 (failing false))).1
    = inl (UnexpectedResponse
             "Attempted to start a ManagedServiceHost: <Response [500]> - boom") ∧
  config (self (@start loud (proc 300 (failing false))).2) = PyDict ∅.
Proof.
  apply (@start_non_200_raises loud (proc 300 (failing false)) boom
           (failing false)); vm_compute; first [reflexivity | discriminate].
Defined.

Lemma start_error_carries_witness :
  ∃ msg, (@start loud (proc 300 (failing false))).1
           = inl (UnexpectedResponse msg) ∧
         contains "ManagedServiceHost" msg ∧
         contains "500" msg ∧
         contains "boom" msg.
Proof.
  apply (@start_error_carries loud (proc 300 (failing false)) boom
           (failing false)); [reflexivity | discriminate].
Defined.

(** C6 as stated fails.  The manager answers the start request with status
    500 and [start] raises [UnexpectedResponse] with a message that is the
    same whatever [get_name()] returns, since [start] builds it without
    calling [get_name()]; for a display name that tells the host's
    configuration file, the display name does not occur in it. *)
Lemma start_error_omits_display_name :
  (∀ name : Host → string,
     (@start (SimFaults.named name)
        (SimFaults.proc_of (SimFaults.named name) (failing false))).1
       = inl (UnexpectedResponse
                "Attempted to start a ManagedServiceHost: <Response [500]> - boom")) ∧
  ∃ res w msg,
    @start_reply loud (proc 300 (failing false)) = (inr res, w) ∧
    status_code res ≠ 200 ∧
    (@start loud (proc 300 (failing false))).1
      = inl (UnexpectedResponse msg) ∧
    @get_name loud (self (proc 300 (failing false)))
      = "ManagedServiceHost [host.config.js]" ∧
    ¬ contains (@get_name loud (self (proc 300 (failing false)))) msg.
Proof.
  split; [intros name; reflexivity|].
  exists boom, (failing false),
    "Attempted to start a ManagedServiceHost: <Response [500]> - boom".
  split_and!; [reflexivity | discriminate | reflexivity | reflexivity |].
  intros H%containsb_spec. vm_compute in H. discriminate.
Qed.

Lemma start_registers_exit_stop_witness :
  ∃ h, exitfuncs (@start loud (proc 300 (healthy false true))).2 = [h] ∧
       @call_exit_handler loud h = @stop loud (Some 10000).
Proof.
  apply (@start_registers_exit_stop loud (proc 300 (healthy false true))).
  vm_compute. reflexivity.
Defined.

Lemma start_notifies_iff_started_witness :
  ∃ printed,
    trace (@start loud (proc 300 (healthy false true))).2
      = @start_request loud (proc 300 (healthy false true)) :: printed ∧
    (EvPrint "Started ManagedServiceHost [host.config.js]" ∈ printed ↔
       truthy (PyBool true) = true ∧ 200 ≤ 300) ∧
    (∀ ev, ev ∈ printed →
       ev = EvPrint "Started ManagedServiceHost [host.config.js]") ∧
    (PyBool true = PyBool false → printed = []).
Proof.
  apply (@start_notifies_iff_started loud (proc 300 (healthy false true))
           (@start loud (proc 300 (healthy false true))).2
           (ok_start true) (healthy true true)
           (PyDict {[ "started" := PyBool true; "output" := PyStr port_json ]})
           (PyBool true));
    vm_compute; reflexivity.
Defined.

Lemma start_non_200_frame_witness :
  exitfuncs (@start loud (proc 300 (failing false))).2 = [] ∧
  trace (@start loud (proc 300 (failing false))).2
    = [@start_request loud (proc 300 (failing false))] ∧
  self (@start loud (proc 300 (failing false))).2 = host0 ∧
  world (@start loud (proc 300 (failing false))).2 = failing false.
Proof.
  apply (@start_non_200_frame loud (proc 300 (failing false)) boom
           (failing false)); vm_compute; first [reflexivity | discriminate].
Defined.

Lemma stop_when_not_running_is_noop_witness :
  @stop loud (Some 2000) (proc 300 (healthy false true))
    = (inr (), proc 300 (healthy false true)).
Proof.
  apply (@stop_when_not_running_is_noop loud (proc 300 (healthy false true))).
  reflexivity.
Defined.

Lemma stop_error_carries_witness :
  ∃ msg, (@stop loud None (proc 300 (failing true))).1
           = inl (UnexpectedResponse msg) ∧
         contains "ManagedServiceHost [host.config.js]" msg ∧
         contains "500" msg ∧
         contains "boom" msg.
Proof.
  apply (@stop_error_carries loud (proc 300 (failing true)) None boom
           (failing true)); vm_compute; first [reflexivity | discriminate].
Defined.

Lemma stop_forwards_timeout_or_settles_witness :
  (∃ rest,
     trace (@stop loud (Some 2000) (proc 300 (healthy true true))).2
       = @stop_request loud (proc 300 (healthy true true)) (Some 2000)
           :: rest ∧
     stop_params host0 (Some 2000) !! "timeout" = Some (PyInt 2000) ∧
     slept rest = 0) ∧
  (∃ rest',
     trace (@stop loud None (proc 300 (healthy true true))).2
       = @stop_request loud (proc 300 (healthy true true)) None
           :: EvSleep 50 :: rest' ∧
     stop_params host0 None = {[ "config" := PyStr "host.config.js" ]}).
Proof.
  split.
  - destruct (@stop_forwards_timeout_or_settles loud
                (proc 300 (healthy true true)) (Some 2000)
                (inr ok_stop) (healthy true true) eq_refl eq_refl)
      as (rest & Htrace & _ & Hsome & _).
    destruct (Hsome 2000 eq_refl) as (Hparams & Hslept & _); [lia|].
    exists rest. split_and!; [exact Htrace | exact Hparams | exact Hslept].
  - destruct (@stop_forwards_timeout_or_settles loud
                (proc 300 (healthy true true)) None
                (inr ok_stop) (healthy false true) eq_refl eq_refl)
      as (rest & Htrace & _ & _ & Hnone).
    destruct (Hnone (or_introl eq_refl)) as (Hparams & Hret & Hsleep).
    destruct (Hsleep (Hret ok_stop eq_refl eq_refl)) as (rest' & -> & _).
    exists rest'. split; [exact Htrace | exact Hparams].
Defined.

Lemma restart_stops_starts_connects_witness :
  calls (trace (@restart loud (proc 300 (healthy true true))).2)
    = [@stop_request loud (proc 300 (healthy true true)) None;
       @start_request loud (proc 300 (healthy true true));
       EvConnect] ∧
  (@restart loud (proc 300 (healthy true true))).1 = inr () ∧
  (@restart loud (proc 300 (failing true))).1
    = (@stop loud None (proc 300 (failing true))).1.
Proof.
  pose proof (proj1 (@restart_stops_starts_connects loud
                       (proc 300 (healthy true true)) eq_refl)
                ok_stop (healthy false true) (ok_start true)
                (healthy true true)
                (PyDict {[ "started" := PyBool true;
                           "output" := PyStr port_json ]})
                (PyStr port_json) port_config (PyBool true)
                eq_refl eq_refl eq_refl eq_refl eq_refl eq_refl eq_refl
                eq_refl) as [Hcalls Hout].
  pose proof (proj2 (@restart_stops_starts_connects loud
                       (proc 300 (failing true)) eq_refl)
                _ _ eq_refl) as [Hfail _].
  split_and!; [exact Hcalls | exact Hout | by rewrite Hfail].
Defined.

End SimRuns.

(** * Further properties of the three methods *)

Lemma printed_lines_app (t1 t2 : list event) :
  printed_lines (t1 ++ t2) = printed_lines t1 ++ printed_lines t2.
Proof.
  induction t1 as [|[] t1 IH]; simpl; by rewrite ?IH.
Qed.

Section Paths.
Context `{X : Externals}.
Implicit Types (st : Proc) (res : Response) (timeout : option Z).

(** Split a run of [start] into its paths: the request raised, the status
    was not 200, and then each line from [res.json()] on. *)
Ltac start_paths st :=
  rewrite (start_sends st);
  destruct (start_reply st) as [[? | ?res] ?w] eqn:?Hreply;
    [| destruct (bool_decide (status_code res ≠ 200)) eqn:?Hcode;
       [| unfold mbind, Py_bind, lift;
          destruct (json res) as [? | ?body] eqn:?Hjson;
            [| destruct (getitem body "output") as [? | ?output] eqn:?Hout;
               [| destruct (py_json_loads output) as [? | ?cfg] eqn:?Hcfg;
                  [| simpl;
                     destruct (getitem body "started")
                       as [? | ?started] eqn:?Hst;
                       [| destruct (truthy started
                                    && (PROCESS_START <=? VERBOSITY))
                            eqn:?Hsay]]]]]];
  simpl.

(** Split a run of [stop] likewise. *)
Ltac stop_paths st timeout :=
  destruct (is_running (self st) (world st)) eqn:?Hrun;
    [rewrite (stop_sends st timeout) by done;
     destruct (stop_reply st timeout) as [[? | ?res] ?w] eqn:?Hreply;
       [| destruct (bool_decide (status_code res ≠ 200)) eqn:?Hcode]
    | rewrite (stop_not_running st timeout) by done];
  simpl.

(** X1: every run of [start], whatever the manager does and whether or not
    the host is running, sends exactly one request, the start request, never
    sleeps and never touches [config_file]. *)
Theorem start_always_one_request st :
  calls (trace (start st).2) = calls (trace st) ++ [start_request st] ∧
  slept (trace (start st).2) = slept (trace st) ∧
  config_file (self (start st).2) = config_file (self st).
Proof.
  start_paths st; rewrite ?calls_app, ?slept_app; simpl;
    rewrite ?app_nil_r; split_and!; try done; lia.
Qed.

(** X2: a [start] that raises, for whatever reason, has registered no
    [atexit] entry and has printed nothing: its trace has grown by the start
    request alone. *)
Theorem start_failure_registers_nothing st e :
  (start st).1 = inl e →
  exitfuncs (start st).2 = exitfuncs st ∧
  trace (start st).2 = trace st ++ [start_request st].
Proof.
  start_paths st; by intros.
Qed.

(** X3: [start] returns exactly when the manager answered 200 with a body
    that has an ['output'] that [json.loads] accepts and a ['started']
    field. *)
Theorem start_returns_iff st :
  (start st).1 = inr () ↔
  ∃ res body output cfg started,
    (start_reply st).1 = inr res ∧ status_code res = 200 ∧
    json res = inr body ∧ getitem body "output" = inr output ∧
    py_json_loads output = inr cfg ∧ getitem body "started" = inr started.
Proof.
  split.
  - intros Hret. destruct (start st) as [r st'] eqn:Hrun. simpl in Hret.
    subst r. destruct (start_returns_inv _ _ Hrun)
      as (res & w & body & output & cfg & started &
          Hreply & Hcode & Hjson & Hout & Hcfg & Hst & _).
    exists res, body, output, cfg, started. rewrite Hreply. by split_and!.
  - intros (res & body & output & cfg & started &
            Hreply & Hcode & Hjson & Hout & Hcfg & Hst).
    destruct (start_reply st) as [r w] eqn:Hr. simpl in Hreply. subst r.
    exact (start_returns st res w body output cfg started
             Hr Hcode Hjson Hout Hcfg Hst).
Qed.

(** X4: when the status is 200 but [res.json()] raises, [start] raises that
    error; [self.config], the [atexit] registry and the output are as
    before. *)
Theorem start_undecodable_body st res w e :
  start_reply st = (inr res, w) →
  status_code res = 200 →
  json res = inl e →
  start st = (inl e, after_request (start_request st) w st).
Proof.
  intros Hreply Hcode Hjson.
  rewrite start_sends, Hreply, bool_decide_eq_false_2 by (by intros []).
  unfold mbind, Py_bind, lift. by rewrite Hjson.
Qed.

(** X5: when the status is 200 and the body has no ['output'], [start]
    raises [KeyError('output')] if the body is a dict and [TypeError] if it
    is anything else; [self.config] and the [atexit] registry are as
    before. *)
Theorem start_missing_output st res w body :
  start_reply st = (inr res, w) →
  status_code res = 200 →
  json res = inr body →
  (∀ d, body = PyDict d → d !! "output" = None →
     start st = (inl (KeyError "output"),
                 after_request (start_request st) w st)) ∧
  ((∀ d, body ≠ PyDict d) →
     start st = (inl TypeError, after_request (start_request st) w st)).
Proof.
  intros Hreply Hcode Hjson.
  assert (Hgo : ∀ e, getitem body "output" = inl e →
            start st = (inl e, after_request (start_request st) w st)).
  { intros e Hout.
    rewrite start_sends, Hreply, bool_decide_eq_false_2 by (by intros []).
    unfold mbind, Py_bind, lift. by rewrite Hjson, Hout. }
  split.
  - intros d -> Hd. apply Hgo. simpl. by rewrite Hd.
  - intros Hnot. apply Hgo. destruct body; try done. by destruct (Hnot d).
Qed.

(** X6: when the status is 200 and the body has an ['output'] that does not
    decode, [start] raises what [json.loads] raises on a string and
    [TypeError] on anything else; [self.config] and the [atexit] registry
    are as before. *)
Theorem start_bad_output st res w body output :
  start_reply st = (inr res, w) →
  status_code res = 200 →
  json res = inr body →
  getitem body "output" = inr output →
  (∀ s e, output = PyStr s → json_loads s = inl e →
     start st = (inl e, after_request (start_request st) w st)) ∧
  ((∀ s, output ≠ PyStr s) →
     start st = (inl TypeError, after_request (start_request st) w st)).
Proof.
  intros Hreply Hcode Hjson Hout.
  assert (Hgo : ∀ e, py_json_loads output = inl e →
            start st = (inl e, after_request (start_request st) w st)).
  { intros e Hcfg.
    rewrite start_sends, Hreply, bool_decide_eq_false_2 by (by intros []).
    unfold mbind, Py_bind, lift. by rewrite Hjson, Hout, Hcfg. }
  split.
  - intros s e -> Hs. by apply Hgo.
  - intros Hnot. apply Hgo. destruct output; try done. by destruct (Hnot s).
Qed.

(** X7: when the status is 200 and the body is a dict with a decodable
    ['output'] but no ['started'], [start] raises [KeyError('started')]
    after it has replaced [self.config]: the new configuration is in place,
    yet nothing is printed and no [atexit] entry is registered. *)
Theorem start_missing_started st res w d output cfg :
  start_reply st = (inr res, w) →
  status_code res = 200 →
  json res = inr (PyDict d) →
  d !! "output" = Some output →
  py_json_loads output = inr cfg →
  d !! "started" = None →
  start st = (inl (KeyError "started"),
              {| self := set_config cfg (self st); world := w;
                 exitfuncs := exitfuncs st;
                 trace := trace st ++ [start_request st] |}).
Proof.
  intros Hreply Hcode Hjson Hout Hcfg Hst.
  rewrite (start_decoded st res w (PyDict d) output cfg); try done.
  - simpl. by rewrite Hst.
  - simpl. by rewrite Hout.
Qed.

(** X8: when [send_request] itself raises on the start request, [start]
    raises the same error, unwrapped, with [self.config] and the [atexit]
    registry as before. *)
Theorem start_request_error_propagates st e w :
  start_reply st = (inl e, w) →
  start st = (inl e, after_request (start_request st) w st).
Proof.
  intros Hreply. by rewrite start_sends, Hreply.
Qed.

(** X9: two calls of [start] that both return leave two equal entries in
    the [atexit] registry: registration is repeated, not deduplicated. *)
Theorem start_twice_registers_twice st st1 st2 :
  start st = (inr (), st1) →
  start st1 = (inr (), st2) →
  exitfuncs st2 = exitfuncs st ++
    [BoundStop ON_EXIT_MANAGED_HOSTS_STOP_TIMEOUT;
     BoundStop ON_EXIT_MANAGED_HOSTS_STOP_TIMEOUT].
Proof.
  intros H1 H2.
  destruct (start_returns_inv _ _ H1)
    as (? & ? & ? & ? & ? & ? & _ & _ & _ & _ & _ & _ & ->).
  destruct (start_returns_inv _ _ H2)
    as (? & ? & ? & ? & ? & ? & _ & _ & _ & _ & _ & _ & ->).
  simpl. by rewrite <- app_assoc.
Qed.

(** X10: every run of [stop] leaves [self] and the [atexit] registry as
    they were, makes one call out of the process if the host is running (the
    stop request) and none otherwise, and sleeps 50 ms at most. *)
Theorem stop_always_frame st timeout :
  self (stop timeout st).2 = self st ∧
  exitfuncs (stop timeout st).2 = exitfuncs st ∧
  calls (trace (stop timeout st).2)
    = calls (trace st) ++
      (if is_running (self st) (world st)
       then [stop_request st timeout] else []) ∧
  slept (trace st) ≤ slept (trace (stop timeout st).2) ≤ slept (trace st) + 50.
Proof.
  destruct (stop_notice_quiet timeout (self st)) as (Hcalls & Hslept & _).
  stop_paths st timeout;
    rewrite ?calls_app, ?slept_app, ?Hcalls, ?Hslept; simpl;
    rewrite ?app_nil_r; split_and!; try done; try lia.
  - unfold stop_settle. destruct (negb _); simpl; by rewrite app_nil_r.
  - unfold stop_settle. destruct (negb _); simpl; lia.
  - unfold stop_settle. destruct (negb _); simpl; lia.
Qed.

(** X11: a timeout of zero is no timeout: [stop(0)] and [stop()] run
    alike, down to the request sent, the sleep and the line printed. *)
Theorem stop_zero_is_no_timeout st :
  stop (Some 0) st = stop None st.
Proof.
  destruct (is_running (self st) (world st)) eqn:Hrun.
  - rewrite !stop_sends by done.
    change (stop_reply st (Some 0)) with (stop_reply st None).
    destruct (stop_reply st None) as [[e|res] w]; [done|].
    destruct (bool_decide _); [done|].
    unfold stop_notice. simpl. by destruct (PROCESS_STOP <=? VERBOSITY).
  - by rewrite !stop_not_running.
Qed.

(** X12: when a running controller gets a status other than 200 for its
    stop request, [stop] raises without having slept or printed, with or
    without a timeout: the request is all that happened. *)
Theorem stop_non_200_frame st timeout res w :
  is_running (self st) (world st) = true →
  stop_reply st timeout = (inr res, w) →
  status_code res ≠ 200 →
  (stop timeout st).2 = after_request (stop_request st timeout) w st.
Proof.
  intros Hrun Hreply Hcode.
  by rewrite stop_sends, Hreply, bool_decide_eq_true_2.
Qed.

Lemma float_int_limit_pos : 0 < float_int_limit.
Proof. reflexivity. Qed.

Lemma stop_outcome_cases timeout h :
  (seconds_overflow timeout ∧ stop_outcome timeout h = inl OverflowError ∧
   stop_notice timeout h = []) ∨
  (¬ seconds_overflow timeout ∧ stop_outcome timeout h = inr ()).
Proof.
  pose proof float_int_limit_pos as Hpos.
  unfold seconds_overflow, stop_outcome, stop_notice.
  destruct (Z.leb_spec PROCESS_STOP VERBOSITY) as [Hloud | Hquiet];
    [| right; split; [intros [? _]; lia | done]].
  destruct timeout as [t|]; simpl;
    [| right; split; [by intros (_ & t & [=] & _) | done]].
  destruct (Z.eqb_spec t 0) as [-> | Ht]; simpl.
  { right. split; [intros (_ & t & [= <-] & Hbig); simpl in Hbig; lia | done]. }
  unfold will_stop_message, seconds. simpl.
  destruct (Z.leb_spec float_int_limit (Z.abs t)) as [Hbig | Hsmall].
  - left. split_and!; [done | by exists t | done | done].
  - right. split; [intros (_ & t' & [= <-] & Hbig); lia | done].
Qed.

(** X13: a [stop] that got a 200 prints nothing when
    [settings.VERBOSITY < Verbosity.PROCESS_STOP].  Otherwise, without a
    timeout (or with zero) it prints ["Stopped <name>"]; with a timeout
    that fits a float it returns having printed
    ["<name> will stop in <timeout / 1000.0> seconds"]; and with a timeout
    from [2 ** 1024 - 2 ** 970] on, in absolute value, it raises
    [OverflowError] at the division and has printed nothing. *)
Theorem stop_prints st timeout res w :
  is_running (self st) (world st) = true →
  stop_reply st timeout = (inr res, w) →
  status_code res = 200 →
  (VERBOSITY < PROCESS_STOP →
     printed_lines (trace (stop timeout st).2) = printed_lines (trace st)) ∧
  (PROCESS_STOP ≤ VERBOSITY → timeout = None ∨ timeout = Some 0 →
     printed_lines (trace (stop timeout st).2)
       = printed_lines (trace st) ++ ["Stopped " +:+ get_name (self st)]) ∧
  (PROCESS_STOP ≤ VERBOSITY →
   ∀ t, timeout = Some t → t ≠ 0 → Z.abs t < float_int_limit →
     (stop timeout st).1 = inr () ∧
     printed_lines (trace (stop timeout st).2)
       = printed_lines (trace st) ++
         [get_name (self st) +:+ " will stop in " +:+ seconds_str t
            +:+ " seconds"]) ∧
  (PROCESS_STOP ≤ VERBOSITY →
   ∀ t, timeout = Some t → float_int_limit ≤ Z.abs t →
     (stop timeout st).1 = inl OverflowError ∧
     printed_lines (trace (stop timeout st).2) = printed_lines (trace st)).
Proof.
  intros Hrun Hreply Hcode.
  rewrite stop_sends, Hreply, bool_decide_eq_false_2 by (done || by intros []).
  simpl. rewrite !printed_lines_app. simpl. rewrite app_nil_r.
  split_and!.
  - intros Hquiet. unfold stop_settle, stop_notice.
    destruct (Z.leb_spec PROCESS_STOP VERBOSITY); [lia|].
    destruct (negb _); simpl; by rewrite app_nil_r.
  - intros Hloud Hfalsy. unfold stop_settle, stop_notice.
    destruct (Z.leb_spec PROCESS_STOP VERBOSITY); [|lia].
    by destruct Hfalsy as [-> | ->].
  - intros Hloud t -> Ht Hfits.
    unfold stop_settle, stop_outcome, stop_notice, will_stop_message, seconds.
    destruct (Z.leb_spec PROCESS_STOP VERBOSITY); [|lia].
    simpl. destruct (Z.eqb_spec t 0); [done|]. simpl.
    by destruct (Z.leb_spec float_int_limit (Z.abs t)); [lia|].
  - intros Hloud t -> Hbig.
    destruct (stop_outcome_cases (Some t) (self st))
      as [(_ & -> & ->) | [Hno _]].
    + split; [done|]. unfold stop_settle. simpl.
      destruct (Z.eqb_spec t 0); simpl; by rewrite ?app_nil_r.
    + destruct Hno. split; [done | by exists t].
Qed.

(** X14: [stop] returns exactly when the host was not running, or the
    manager answered the stop request with status 200 and the line to print
    can be built: it is not the case that
    [settings.VERBOSITY >= Verbosity.PROCESS_STOP] and the timeout is from
    [2 ** 1024 - 2 ** 970] on in absolute value, when
    [timeout / 1000.0] raises [OverflowError]. *)
Theorem stop_returns_iff st timeout :
  (stop timeout st).1 = inr () ↔
  is_running (self st) (world st) = false ∨
  ∃ res, (stop_reply st timeout).1 = inr res ∧ status_code res = 200 ∧
         ¬ (PROCESS_STOP ≤ VERBOSITY ∧
            ∃ t, timeout = Some t ∧ float_int_limit ≤ Z.abs t).
Proof.
  fold (seconds_overflow timeout).
  destruct (stop_outcome_cases timeout (self st))
    as [(Hover & Hout & _) | [Hfine Hout]];
    stop_paths st timeout; rewrite ?Hout; split; try done.
  all: try by intros [? | (res' & ? & _)].
  all: try by left.
  - intros [? | (res' & [= <-] & Hok & _)]; [done|].
    by apply bool_decide_eq_true in Hcode.
  - by intros [? | (res' & _ & _ & ?)].
  - intros [? | (res' & [= <-] & Hok & _)]; [done|].
    by apply bool_decide_eq_true in Hcode.
  - intros _. right. exists res. split_and!; [done | | done].
    apply bool_decide_eq_false in Hcode. by apply dec_stable in Hcode.
Qed.

(** X15: the [atexit] entry with a timeout other than zero never sleeps.
    Called on a running host it sends one stop request, whose [params] are
    ['config'] and that timeout; called on a stopped host it sends
    nothing. *)
Theorem exit_handler_forwards_grace st t :
  t ≠ 0 →
  slept (trace (call_exit_handler (BoundStop t) st).2) = slept (trace st) ∧
  calls (trace (call_exit_handler (BoundStop t) st).2)
    = calls (trace st) ++
      (if is_running (self st) (world st)
       then [EvRequest "stop"
               {[ "timeout" := PyInt t;
                  "config" := PyStr (config_file (self st)) ]} true]
       else []).
Proof.
  intros Ht. simpl.
  assert (Hparams : stop_request st (Some t)
            = EvRequest "stop"
                {[ "timeout" := PyInt t;
                   "config" := PyStr (config_file (self st)) ]} true).
  { unfold stop_request, stop_params. simpl. by destruct (Z.eqb_spec t 0). }
  assert (Hsettle : stop_settle (Some t) = []).
  { unfold stop_settle. simpl. by destruct (Z.eqb_spec t 0). }
  destruct (stop_notice_quiet (Some t) (self st)) as (Hcalls & Hslept & _).
  rewrite <- Hparams.
  stop_paths st (Some t);
    rewrite ?Hsettle, ?calls_app, ?slept_app, ?Hcalls, ?Hslept; simpl;
    rewrite ?app_nil_r; split; try done; lia.
Qed.

(** X16: [restart] on a host that is not running sends no stop request
    and does not sleep: when [start] returns, the calls out of the process
    are the start request and [connect]. *)
Theorem restart_not_running_skips_stop st st2 :
  is_running (self st) (world st) = false →
  start st = (inr (), st2) →
  calls (trace (restart st).2)
    = calls (trace st) ++ [start_request st; EvConnect] ∧
  slept (trace (restart st).2) = slept (trace st).
Proof.
  intros Hrun Hstart.
  rewrite restart_steps, stop_not_running, Hstart, self_connect_steps by done.
  destruct (start_returns_inv _ _ Hstart)
    as (res & w & body & output & cfg & started & _ & _ & _ & _ & _ & _ & ->).
  assert (calls (start_notice started (set_config cfg (self st))) = [] ∧
          slept (start_notice started (set_config cfg (self st))) = 0)
    as [Hcalls Hslept].
  { unfold start_notice. by destruct (truthy started && _). }
  simpl. rewrite !calls_app, !slept_app, Hcalls, Hslept. simpl.
  rewrite app_nil_r, <- app_assoc. split; [done | lia].
Qed.

(** X17: when [stop] returns and [start] then raises, [restart] raises the
    same error in the state [start] left and [connect] is never called: the
    calls out of the process are the stop request, if the host was running,
    and the start request. *)
Theorem restart_start_failure_skips_connect st st1 st2 e :
  stop None st = (inr (), st1) →
  start st1 = (inl e, st2) →
  restart st = (inl e, st2) ∧
  calls (trace st2)
    = calls (trace st) ++
      (if is_running (self st) (world st) then [stop_request st None] else [])
      ++ [start_request st].
Proof.
  intros Hstop Hstart. split; [by rewrite restart_steps, Hstop, Hstart|].
  assert (Hst1 : self st1 = self st ∧
                 calls (trace st1) = calls (trace st) ++
                   (if is_running (self st) (world st)
                    then [stop_request st None] else [])).
  { destruct (stop_notice_quiet None (self st)) as (Hquiet & _ & _).
    revert Hstop.
    stop_paths st (@None Z); rewrite ?stop_outcome_falsy by done;
      intros [= <-]; simpl.
    - split; [done|]. rewrite !calls_app.
      change (calls (EvSleep 50 :: stop_notice None (self st)))
        with (calls (stop_notice None (self st))).
      by rewrite Hquiet, app_nil_r.
    - by rewrite app_nil_r. }
  destruct Hst1 as [Hself Hcalls].
  assert (Hreq : start_request st1 = start_request st)
    by (unfold start_request; by rewrite Hself).
  rewrite app_assoc, <- Hcalls, <- Hreq. clear Hcalls Hreq Hself Hstop.
  revert Hstart. start_paths st1; intros [= <- <-]; simpl;
    by rewrite calls_app.
Qed.

(** X18: when [stop] and [start] return and [connect] then raises,
    [restart] raises the same error and undoes nothing: the configuration
    [start] adopted stays in [self.config] and its [atexit] entry stays
    registered. *)
Theorem restart_connect_failure_keeps_start st st1 st2 e w :
  stop None st = (inr (), st1) →
  start st1 = (inr (), st2) →
  connect (self st2) (world st2) = (inl e, w) →
  (restart st).1 = inl e ∧
  self (restart st).2 = self st2 ∧
  exitfuncs (restart st).2
    = exitfuncs st ++ [BoundStop ON_EXIT_MANAGED_HOSTS_STOP_TIMEOUT].
Proof.
  intros Hstop Hstart Hconnect.
  rewrite restart_steps, Hstop, Hstart, self_connect_steps, Hconnect. simpl.
  split_and!; try done.
  destruct (start_returns_inv _ _ Hstart)
    as (? & ? & ? & ? & ? & ? & _ & _ & _ & _ & _ & _ & ->). simpl.
  assert (exitfuncs st1 = exitfuncs st) as ->; [|done].
  revert Hstop.
  by stop_paths st (@None Z); rewrite ?stop_outcome_falsy by done;
    intros [= <-].
Qed.

Lemma start_slept st : slept (trace (start st).2) = slept (trace st).
Proof.
  start_paths st; rewrite ?slept_app; simpl; lia.
Qed.

(** X19: [restart] stops without a timeout, so on a running host whose
    manager answers the stop request with 200 it has slept exactly 50 ms
    when it ends, whatever [start] and [connect] then do. *)
Theorem restart_sleeps_50 st res w :
  is_running (self st) (world st) = true →
  stop_reply st None = (inr res, w) →
  status_code res = 200 →
  slept (trace (restart st).2) = slept (trace st) + 50.
Proof.
  intros Hrun Hreply Hcode.
  rewrite restart_steps, stop_sends, Hreply by done.
  rewrite bool_decide_eq_false_2, stop_outcome_falsy by (done || by intros []).
  match goal with |- context [start ?s] => set (st1 := s) end.
  assert (Hst1 : slept (trace st1) = slept (trace st) + 50).
  { destruct (stop_notice_quiet None (self st)) as (_ & Hquiet & _).
    unfold st1. simpl. rewrite !slept_app. simpl. lia. }
  pose proof (start_slept st1) as Hstart.
  destruct (start st1) as [[e|[]] st2]; simpl in *; [lia|].
  rewrite self_connect_steps. simpl. rewrite slept_app. simpl. lia.
Qed.

End Paths.

(** * The further properties on the simulated managers *)

Module FaultRuns.
Import Sim SimFaults.

Lemma start_failure_registers_nothing_witness :
  exitfuncs (@start loud (proc 300 (failing false))).2 = [] ∧
  trace (@start loud (proc 300 (failing false))).2
    = [@start_request loud (proc 300 (failing false))].
Proof.
  apply (@start_failure_registers_nothing loud (proc 300 (failing false))
           (UnexpectedResponse
              "Attempted to start a ManagedServiceHost: <Response [500]> - boom")).
  reflexivity.
Defined.

Lemma start_undecodable_body_witness :
  @start loud (proc_of loud (answering false no_json))
    = (inl (OtherError "ValueError"),
       @after_request loud
         (@start_request loud (proc_of loud (answering false no_json)))
         (answering true no_json) (proc_of loud (answering false no_json))).
Proof.
  apply (@start_undecodable_body loud (proc_of loud (answering false no_json))
           no_json (answering true no_json) (OtherError "ValueError"));
    reflexivity.
Defined.

Lemma start_missing_output_witness :
  (@start loud (proc_of loud (answering false no_output))).1
    = inl (KeyError "output") ∧
  (@start loud (proc_of loud (answering false list_body))).1 = inl TypeError.
Proof.
  split.
  - rewrite (proj1 (@start_missing_output loud
                      (proc_of loud (answering false no_output)) no_output
                      (answering true no_output)
                      (PyDict {[ "started" := PyBool true ]})
                      eq_refl eq_refl eq_refl)
               {[ "started" := PyBool true ]} eq_refl eq_refl).
    reflexivity.
  - destruct (@start_missing_output loud
                (proc_of loud (answering false list_body)) list_body
                (answering true list_body) (PyList [PyStr port_json])
                eq_refl eq_refl eq_refl) as [_ Hother].
    rewrite Hother by (intros d; discriminate). reflexivity.
Defined.

Lemma start_bad_output_witness :
  (@start loud (proc_of loud (answering false bad_output))).1
    = inl (OtherError "ValueError") ∧
  (@start loud (proc_of loud (answering false int_output))).1 = inl TypeError.
Proof.
  split.
  - destruct (@start_bad_output loud
                (proc_of loud (answering false bad_output)) bad_output
                (answering true bad_output)
                (PyDict {[ "started" := PyBool true;
                           "output" := PyStr "{port" ]})
                (PyStr "{port") eq_refl eq_refl eq_refl eq_refl)
      as [Hstr _].
    rewrite (Hstr "{port" (OtherError "ValueError") eq_refl eq_refl).
    reflexivity.
  - destruct (@start_bad_output loud
                (proc_of loud (answering false int_output)) int_output
                (answering true int_output)
                (PyDict {[ "started" := PyBool true;
                           "output" := PyInt 5000 ]})
                (PyInt 5000) eq_refl eq_refl eq_refl eq_refl)
      as [_ Hother].
    rewrite Hother by (intros d; discriminate). reflexivity.
Defined.

Lemma start_missing_started_witness :
  (@start loud (proc_of loud (answering false no_started))).1
    = inl (KeyError "started") ∧
  config (self (@start loud (proc_of loud (answering false no_started))).2)
    = port_config ∧
  exitfuncs (@start loud (proc_of loud (answering false no_started))).2 = [].
Proof.
  rewrite (@start_missing_started loud
             (proc_of loud (answering false no_started)) no_started
             (answering true no_started)
             {[ "output" := PyStr port_json ]} (PyStr port_json) port_config
             eq_refl eq_refl eq_refl eq_refl eq_refl eq_refl).
  split_and!; reflexivity.
Defined.

Lemma start_request_error_propagates_witness :
  (@start unreachable (proc_of unreachable (healthy false true))).1
    = inl (OtherError "ConnectionError") ∧
  self (@start unreachable (proc_of unreachable (healthy false true))).2
    = host0.
Proof.
  rewrite (@start_request_error_propagates unreachable
             (proc_of unreachable (healthy false true))
             (OtherError "ConnectionError") (healthy false true) eq_refl).
  split; reflexivity.
Defined.

Lemma start_twice_registers_twice_witness :
  exitfuncs (@start loud (@start loud (proc 300 (healthy false true))).2).2
    = [BoundStop 10000; BoundStop 10000].
Proof.
  apply (@start_twice_registers_twice loud (proc 300 (healthy false true))
           (@start loud (proc 300 (healthy false true))).2
           (@start loud (@start loud (proc 300 (healthy false true))).2).2);
    vm_compute; reflexivity.
Defined.

Lemma stop_non_200_frame_witness :
  trace (@stop loud None (proc 300 (failing true))).2
    = [@stop_request loud (proc 300 (failing true)) None].
Proof.
  rewrite (@stop_non_200_frame loud (proc 300 (failing true)) None boom
             (failing true) eq_refl eq_refl); [reflexivity | discriminate].
Defined.

Lemma stop_prints_witness :
  printed_lines
    (trace (@stop (externals 0) None (proc 0 (healthy true true))).2) = [] ∧
  printed_lines (trace (@stop loud None (proc 300 (healthy true true))).2)
    = ["Stopped ManagedServiceHost [host.config.js]"] ∧
  printed_lines
    (trace (@stop loud (Some 1500) (proc 300 (healthy true true))).2)
    = ["ManagedServiceHost [host.config.js] will stop in 1.5 seconds"] ∧
  (@stop loud (Some (10 ^ 400)) (proc 300 (healthy true true))).1
    = inl OverflowError ∧
  printed_lines
    (trace (@stop loud (Some (10 ^ 400)) (proc 300 (healthy true true))).2)
    = [].
Proof.
  split_and!.
  - apply (proj1 (@stop_prints (externals 0) (proc 0 (healthy true true))
                    None ok_stop (healthy false true)
                    eq_refl eq_refl eq_refl)).
    reflexivity.
  - apply (proj1 (proj2 (@stop_prints loud (proc 300 (healthy true true))
                           None ok_stop (healthy false true)
                           eq_refl eq_refl eq_refl)));
      [discriminate | by left].
  - destruct (@stop_prints loud (proc 300 (healthy true true))
                (Some 1500) ok_stop (healthy true true)
                eq_refl eq_refl eq_refl) as (_ & _ & Hfits & _).
    destruct (Hfits ltac:(discriminate) 1500 eq_refl ltac:(discriminate)
                eq_refl) as [_ Hline].
    exact Hline.
  - destruct (@stop_prints loud (proc 300 (healthy true true))
                (Some (10 ^ 400)) ok_stop (healthy true true)
                eq_refl eq_refl eq_refl) as (_ & _ & _ & Hbig).
    destruct (Hbig ltac:(discriminate) (10 ^ 400) eq_refl
                ltac:(by vm_compute)) as [Hraise _].
    exact Hraise.
  - destruct (@stop_prints loud (proc 300 (healthy true true))
                (Some (10 ^ 400)) ok_stop (healthy true true)
                eq_refl eq_refl eq_refl) as (_ & _ & _ & Hbig).
    destruct (Hbig ltac:(discriminate) (10 ^ 400) eq_refl
                ltac:(by vm_compute)) as [_ Hnone].
    exact Hnone.
Defined.

Lemma exit_handler_forwards_grace_witness :
  slept (trace (@call_exit_handler loud (BoundStop 10000)
                  (proc 300 (healthy true true))).2) = 0 ∧
  calls (trace (@call_exit_handler loud (BoundStop 10000)
                  (proc 300 (healthy true true))).2)
    = [EvRequest "stop"
         {[ "timeout" := PyInt 10000; "config" := PyStr "host.config.js" ]}
         true].
Proof.
  apply (@exit_handler_forwards_grace loud (proc 300 (healthy true true))
           10000).
  discriminate.
Defined.

Lemma restart_not_running_skips_stop_witness :
  calls (trace (@restart loud (proc 300 (healthy false true))).2)
    = [@start_request loud (proc 300 (healthy false true)); EvConnect] ∧
  slept (trace (@restart loud (proc 300 (healthy false true))).2) = 0.
Proof.
  apply (@restart_not_running_skips_stop loud (proc 300 (healthy false true))
           (@start loud (proc 300 (healthy false true))).2);
    vm_compute; reflexivity.
Defined.

Lemma restart_start_failure_skips_connect_witness :
  (@restart loud (proc 300 (answering true boom))).1
    = inl (UnexpectedResponse
             "Attempted to start a ManagedServiceHost: <Response [500]> - boom") ∧
  calls (trace (@restart loud (proc 300 (answering true boom))).2)
    = [@stop_request loud (proc 300 (answering true boom)) None;
       @start_request loud (proc 300 (answering true boom))].
Proof.
  destruct (@restart_start_failure_skips_connect loud
              (proc 300 (answering true boom))
              (@stop loud None (proc 300 (answering true boom))).2
              (@start loud
                 (@stop loud None (proc 300 (answering true boom))).2).2
              (UnexpectedResponse
                 "Attempted to start a ManagedServiceHost: <Response [500]> - boom"))
    as [Hrestart Hcalls]; [vm_compute; reflexivity ..|].
  rewrite Hrestart. split; [reflexivity | exact Hcalls].
Defined.

Lemma restart_connect_failure_keeps_start_witness :
  (@restart no_connect (proc_of no_connect (healthy true true))).1
    = inl (OtherError "ConnectionError") ∧
  config (self (@restart no_connect (proc_of no_connect (healthy true true))).2)
    = port_config ∧
  exitfuncs (@restart no_connect (proc_of no_connect (healthy true true))).2
    = [BoundStop 10000].
Proof.
  destruct (@restart_connect_failure_keeps_start no_connect
              (proc_of no_connect (healthy true true))
              (@stop no_connect None
                 (proc_of no_connect (healthy true true))).2
              (@start no_connect
                 (@stop no_connect None
                    (proc_of no_connect (healthy true true))).2).2
              (OtherError "ConnectionError") (healthy true true))
    as (Hraise & Hself & Hexit); [vm_compute; reflexivity ..|].
  rewrite Hraise, Hself, Hexit. split_and!; vm_compute; reflexivity.
Defined.

Lemma restart_sleeps_50_witness :
  slept (trace (@restart loud (proc 300 (healthy true true))).2) = 50.
Proof.
  apply (@restart_sleeps_50 loud (proc 300 (healthy true true)) ok_stop
           (healthy false true)); reflexivity.
Defined.

End FaultRuns.
